(** * The expo-router toolbar elements, as a shallow embedding

    Source files:
    - [packages/expo-router/src/toolbar/elements.tsx]
    - [packages/expo-router/src/toolbar/index.ts]

    The components of the toolbar are small functions from a props object to
    a React element.  Props objects are finite maps from property names to
    JavaScript values; the only state is the memo cell that [useMemo] keeps
    per mounted component instance, and the number of identifiers that
    [nanoid] has handed out so far. *)

From Stdlib Require Import Floats.SpecFloat.
From stdpp Require Import gmap strings list fin_maps pretty.

Set Warnings "-register-all".
#[local] Open Scope string_scope.

(** ** JavaScript values *)

(** A JavaScript number is an IEEE 754 binary64 value. *)
Definition number := spec_float.

(** Function objects are compared by reference; a reference is a label.
    The arrow functions declared in [elements.tsx] are labelled by the name
    of the constant that holds them. *)
Definition FunctionRef := string.

(** The values that can reach the toolbar components through their props.
    An element is what the JSX factory is given: the element type and the
    props object. *)
Inductive Value :=
  | VUndefined
  | VNull
  | VBool (b : bool)
  | VNumber (n : number)
  | VString (s : string)
  | VFunction (f : FunctionRef)
  | VArray (items : list Value)
  | VObject (fields : gmap string Value)
  | VElement (type : Value) (props : gmap string Value).

(** A props object. *)
Abbreviation Props := (gmap string Value).

(** Property read [o.k]: a missing property reads as [undefined]. *)
Definition get (o : Props) (k : string) : Value :=
  default VUndefined (o !! k).

(** The number [z], for an integer literal of the source. *)
Definition number_of_Z (z : Z) : number :=
  match z with
  | Z0 => S754_zero false
  | Zpos p => S754_finite false p 0
  | Zneg p => S754_finite true p 0
  end.

(** [ToBoolean], the conversion behind [c ? a : b]. *)
Definition ToBoolean (v : Value) : bool :=
  match v with
  | VUndefined | VNull => false
  | VBool b => b
  | VNumber n =>
      match n with
      | S754_zero _ | S754_nan => false
      | S754_infinity _ | S754_finite _ _ _ => true
      end
  | VString s => negb (String.eqb s "")
  | VFunction _ | VArray _ | VObject _ | VElement _ _ => true
  end.

(** What the JavaScript engine decides: the decimal rendering of a number
    and the source text of a function. *)
Class Engine := {
  Number_toString : number -> string;
  Function_toString : FunctionRef -> string;
}.

(** [Array.prototype.join] over already converted items. *)
Fixpoint join (sep : string) (parts : list string) : string :=
  match parts with
  | [] => ""
  | [s] => s
  | s :: rest => s +:+ sep +:+ join sep rest
  end.

Section Conversions.
Context `{Engine}.

(** [String(v)]. Arrays convert through [join(",")], where [undefined] and
    [null] items give the empty string; other objects convert through
    [Object.prototype.toString]. *)
Fixpoint JsString (v : Value) : string :=
  match v with
  | VUndefined => "undefined"
  | VNull => "null"
  | VBool true => "true"
  | VBool false => "false"
  | VNumber n => Number_toString n
  | VString s => s
  | VFunction f => Function_toString f
  | VArray items =>
      join "," (map (fun item =>
                       match item with
                       | VUndefined | VNull => ""
                       | _ => JsString item
                       end) items)
  | VObject _ | VElement _ _ => "[object Object]"
  end.
End Conversions.

(** ** Elements *)

(** [<type {...props} />]: the JSX factory applied to a type and a props
    object.  React removes [key] before a component sees its props, so the
    props handled here never carry it. *)
Definition jsx (type : Value) (props : Props) : Value := VElement type props.

Definition element_props (el : Value) : Props :=
  match el with
  | VElement _ props => props
  | _ => ∅
  end.

Definition element_type (el : Value) : Value :=
  match el with
  | VElement type _ => type
  | _ => VUndefined
  end.

(** ** Rendering with one memo cell *)

(** What a component body can read and write while it renders: the number of
    identifiers [nanoid] has returned so far, and the memo cell of the
    instance being rendered ([None] until the first render has run). *)
Record RenderState := {
  calls : nat;
  hook : option Value;
}.

Definition Render (A : Type) : Type := RenderState -> A * RenderState.

Definition ret {A} (a : A) : Render A := fun st => (a, st).

Definition bind {A B} (m : Render A) (k : A -> Render B) : Render B :=
  fun st => let '(a, st') := m st in k a st'.

Notation "'let*' x ':=' m 'in' k" := (bind m (fun x => k))
  (at level 10, x name, m at level 100, k at level 200).

(** What [elements.tsx] imports. [nanoid_output n] is the string that the
    call number [n] to [nanoid] returns. *)
Class Imports := {
  RouterToolbarHost : Value;
  RouterToolbarItem : Value;
  View : Value;
  InternalLinkPreviewContext : Value;
  LinkMenu : Value;
  LinkMenuAction : Value;
  nanoid_output : nat -> string;
}.

(** How React mounts a memo cell.  In production the callback of [useMemo]
    runs once.  In development under StrictMode React runs it a second time
    and throws one of the two results away.  So a mount is: some runs whose
    results are thrown away, the run whose result is kept, and some more
    runs thrown away; the properties below hold for every such mode. *)
Class ReactMode := {
  discarded_before : nat;
  discarded_after : nat;
}.

(** [n] runs of [create] whose results are thrown away. *)
Definition discard (n : nat) (create : Render Value)
    (st : RenderState) : RenderState :=
  Nat.iter n (fun st' => (create st').2) st.

Section Elements.
Context `{Engine} `{ReactMode} `{Imports}.

Definition nanoid : Render Value :=
  fun st => (VString (nanoid_output (calls st)),
             {| calls := S (calls st); hook := hook st |}).

(** [useMemo(create, [])]: with an empty dependency list the value kept
    when the instance mounts is returned by every later render of the
    instance, and the callback is not run again. *)
Definition useMemo (create : Render Value) : Render Value :=
  fun st =>
    match hook st with
    | Some v => (v, st)
    | None =>
        let '(v, st') := create (discard discarded_before create st) in
        (v, {| calls := calls (discard discarded_after create st');
               hook := Some v |})
    end.

Definition ToolbarMenu : Value := LinkMenu.

Definition ToolbarMenuAction : Value := LinkMenuAction.

Definition ToolbarButton (props : Props) : Render Value :=
  let children := get props "children" in
  let sf := get props "sf" in
  let onPress := get props "onPress" in
  let rest := delete "onPress" (delete "sf" (delete "children" props)) in
  let* id := useMemo nanoid in
  ret (jsx RouterToolbarItem
         (<["systemImageName" := sf]>
            (<["title" := VString (JsString children)]>
               (<["identifier" := id]>
                  (<["onSelected" := onPress]> rest))))).

Definition ToolbarSpacer (props : Props) : Render Value :=
  let width := get props "width" in
  let rest := delete "width" props in
  let* id := useMemo nanoid in
  ret (jsx RouterToolbarItem
         (<["width" := width]>
            (<["type" := VString (if ToBoolean width
                                  then "fixedSpacer" else "fluidSpacer")]>
               (<["identifier" := id]> rest)))).

Definition ToolbarView (props : Props) : Render Value :=
  let children := get props "children" in
  let style := get props "style" in
  let rest := delete "style" (delete "children" props) in
  let* id := useMemo nanoid in
  ret (jsx RouterToolbarItem
         (<["children" :=
              jsx View
                (<["children" := children]>
                   {["style" :=
                       VArray [style;
                               VObject {["position" := VString "absolute"]}]]})]>
            (<["identifier" := id]> rest))).

Definition ToolbarHost (props : Props) : Value :=
  jsx InternalLinkPreviewContext
    (<["children" := jsx RouterToolbarHost props]>
       {["value" := VObject (<["href" := VString ""]>
                               {["isVisible" := VBool false]})]}).
End Elements.

(** ** [index.ts]: the exported [Toolbar] object *)

(** A function object: its reference and its own enumerable properties. *)
Record FunctionObject := {
  ref : FunctionRef;
  properties : gmap string Value;
}.

(** [Object.assign(target, source)] writes the properties of the source, in
    their order, into the target and returns the target. *)
Definition Object_assign (target : FunctionObject)
    (source : list (string * Value)) : FunctionObject :=
  {| ref := ref target;
     properties := foldl (fun m kv => <[kv.1 := kv.2]> m)
                         (properties target) source |}.

Section Index.
Context `{Imports}.

Definition Toolbar : FunctionObject :=
  Object_assign {| ref := "ToolbarHost"; properties := ∅ |}
    [("Menu", ToolbarMenu);
     ("MenuAction", ToolbarMenuAction);
     ("Button", VFunction "ToolbarButton");
     ("Spacer", VFunction "ToolbarSpacer");
     ("View", VFunction "ToolbarView")].
End Index.

(** ** How the native side reads a style *)

(** React Native resolves the [style] prop of a view by flattening it: a
    style object stands for itself (an element is an object too, with its
    type and props as fields), an array is merged entry by entry with later
    entries overriding earlier ones, and anything that is not an object
    contributes nothing. *)
Fixpoint flattenStyle (style : Value) : option Props :=
  match style with
  | VObject fields => Some fields
  | VArray items =>
      Some (foldl (fun result item =>
                     match flattenStyle item with
                     | Some computed => computed ∪ result
                     | None => result
                     end) ∅ items)
  | VElement type props =>
      Some (<["props" := VObject props]> {["type" := type]})
  | VUndefined | VNull | VBool _ | VNumber _ | VString _ | VFunction _ => None
  end.

(** ** Mounted instances *)

(** The three components that generate an identifier. *)
Inductive Kind := Button | Spacer | CustomView.

#[global] Instance Kind_eq_dec : EqDecision Kind.
Proof. solve_decision. Defined.

(** A mounted instance: which component it renders and its memo cell. *)
Record Instance := {
  kind : Kind;
  memo : option Value;
}.

(** The rendered tree: the instances that are mounted, by position, and the
    number of identifiers generated so far. *)
Record Tree := {
  generated : nat;
  mounted : gmap nat Instance;
}.

Definition empty_tree : Tree := {| generated := 0; mounted := ∅ |}.

Inductive Event :=
  | RenderAt (i : nat) (k : Kind) (props : Props)
  | UnmountAt (i : nat).

Section Reconciler.
Context `{Engine} `{ReactMode} `{Imports}.

Definition component (k : Kind) : Props -> Render Value :=
  match k with
  | Button => ToolbarButton
  | Spacer => ToolbarSpacer
  | CustomView => ToolbarView
  end.

(** The memo cell a render at position [i] starts from: the stored cell
    when an instance of the same component is mounted there, an empty cell
    when the instance is mounted by this render. *)
Definition cell_for (t : Tree) (i : nat) (k : Kind) : option Value :=
  match mounted t !! i with
  | Some inst => if decide (kind inst = k) then memo inst else None
  | None => None
  end.

(** One event: the new tree and, for a render, the element handed to the
    native bridge. *)
Definition step (t : Tree) (e : Event) : Tree * option Value :=
  match e with
  | RenderAt i k props =>
      let '(el, st) :=
        component k props {| calls := generated t; hook := cell_for t i k |} in
      ({| generated := calls st;
          mounted := <[i := {| kind := k; memo := hook st |}]> (mounted t) |},
       Some el)
  | UnmountAt i =>
      ({| generated := generated t; mounted := delete i (mounted t) |}, None)
  end.

Definition run (t : Tree) (events : list Event) : Tree :=
  foldl (fun t e => (step t e).1) t events.

(** The identifier a render hands to the native bridge. *)
Definition identifier_of (out : option Value) : Value :=
  match out with
  | Some el => get (element_props el) "identifier"
  | None => VUndefined
  end.

(** The events that leave the instance of component [k] at position [i]
    mounted: no unmount of [i], and no render of another component there. *)
Definition keeps_mounted (i : nat) (k : Kind) (e : Event) : bool :=
  match e with
  | RenderAt j k' _ => bool_decide (j = i -> k' = k)
  | UnmountAt j => bool_decide (j <> i)
  end.

(** What holds of every tree the events can build: each mounted instance
    keeps an identifier that [nanoid] has already returned, and the
    instances at two positions keep the results of two different calls. *)
Definition issued_at (t : Tree) (i n : nat) : Prop :=
  exists inst,
    mounted t !! i = Some inst
    /\ memo inst = Some (VString (nanoid_output n)).

Definition tree_ok (t : Tree) : Prop :=
  (forall i inst, mounted t !! i = Some inst -> exists n, issued_at t i n)
  /\ (forall i n, issued_at t i n -> n < generated t)
  /\ (forall i j n, i <> j -> issued_at t i n -> ~ issued_at t j n).
End Reconciler.

(** ** A sample environment *)

(** An engine and a set of imports to run the components on concrete
    inputs.  The engine prints the integers that fit the mantissa in
    decimal; the examples convert no other number and no function.  The
    generator numbers its identifiers. *)
Definition sample_Number_toString (n : number) : string :=
  match n with
  | S754_zero _ => "0"
  | S754_nan => "NaN"
  | S754_infinity false => "Infinity"
  | S754_infinity true => "-Infinity"
  | S754_finite sign m e =>
      if decide (e = 0%Z /\ (Zpos m < 2 ^ 53)%Z)
      then (if sign then "-" else "") +:+ pretty (Zpos m)
      else ""
  end.

Definition sample_engine : Engine :=
  {| Number_toString := sample_Number_toString;
     Function_toString :=
       fun f => "function " +:+ f +:+ "() { [native code] }" |}.

(** React as it runs in production, and as it runs in development under
    StrictMode when it keeps the first of the two results. *)
Definition production : ReactMode :=
  {| discarded_before := 0; discarded_after := 0 |}.

Definition development : ReactMode :=
  {| discarded_before := 0; discarded_after := 1 |}.

Definition sample_imports : Imports :=
  {| RouterToolbarHost := VFunction "RouterToolbarHost";
     RouterToolbarItem := VFunction "RouterToolbarItem";
     View := VFunction "View";
     InternalLinkPreviewContext := VFunction "InternalLinkPreviewContext";
     LinkMenu := VFunction "LinkMenu";
     LinkMenuAction := VFunction "LinkMenuAction";
     nanoid_output := pretty |}.

(** A generator that returns the same string at every call. *)
Definition repeating_imports : Imports :=
  {| RouterToolbarHost := VFunction "RouterToolbarHost";
     RouterToolbarItem := VFunction "RouterToolbarItem";
     View := VFunction "View";
     InternalLinkPreviewContext := VFunction "InternalLinkPreviewContext";
     LinkMenu := VFunction "LinkMenu";
     LinkMenuAction := VFunction "LinkMenuAction";
     nanoid_output := fun _ => "V1StGXR8_Z5jdHi6B-myT" |}.

(** Two buttons and a spacer are mounted, the first button renders again,
    the spacer is unmounted and another button takes its place. *)
Definition sample_events : list Event :=
  [RenderAt 0 Button {["sf" := VString "mic"]};
   RenderAt 1 Spacer ∅;
   RenderAt 2 Button {["children" := VString "Search"]};
   RenderAt 0 Button {["sf" := VString "xmark"]};
   UnmountAt 1;
   RenderAt 1 Button ∅].

(** A toolbar with one item of each kind: a spacer, a button and a view. *)
Definition sample_toolbar : list Event :=
  [RenderAt 0 Spacer ∅;
   RenderAt 1 Button {["sf" := VString "magnifyingglass"]};
   RenderAt 2 CustomView
     {["style" := VObject {["width" := VNumber (number_of_Z 200)]}]}].

(** The state of an instance that has not rendered yet, in a program that
    has generated no identifier. *)
Definition fresh : RenderState := {| calls := 0; hook := None |}.

(** * Properties *)

(** A shorthand for the item record a component hands to the native bridge
    when it renders with [props] from the state [st]. *)
Definition item_of (body : Props -> Render Value) (props : Props)
    (st : RenderState) : Props :=
  element_props (body props st).1.

Section RenderFacts.
Context `{Engine} `{ReactMode} `{Imports}.

Lemma useMemo_nanoid_hit st v :
  hook st = Some v -> useMemo nanoid st = (v, st).
Proof. intros Hv. unfold useMemo. by rewrite Hv. Qed.

Lemma discard_nanoid n st :
  discard n nanoid st = {| calls := n + calls st; hook := hook st |}.
Proof.
  induction n as [|n IH]; [by destruct st|].
  change (discard (S n) nanoid st) with (nanoid (discard n nanoid st)).2.
  by rewrite IH.
Qed.

(** A mount keeps the output that follows the runs thrown away first, and
    counts every run. *)
Lemma useMemo_nanoid_miss st :
  hook st = None ->
  useMemo nanoid st =
    (VString (nanoid_output (discarded_before + calls st)),
     {| calls := discarded_after + S (discarded_before + calls st);
        hook := Some (VString (nanoid_output (discarded_before + calls st))) |}).
Proof.
  intros Hv. unfold useMemo. rewrite Hv, discard_nanoid. simpl.
  by rewrite discard_nanoid.
Qed.

(** The identifier of a render and the state it leaves depend on the memo
    cell only: they are those of [useMemo nanoid]. *)
Lemma ToolbarButton_unfold props st :
  ToolbarButton props st =
    (jsx RouterToolbarItem
       (<["systemImageName" := get props "sf"]>
          (<["title" := VString (JsString (get props "children"))]>
             (<["identifier" := (useMemo nanoid st).1]>
                (<["onSelected" := get props "onPress"]>
                   (delete "onPress"
                      (delete "sf" (delete "children" props))))))),
     (useMemo nanoid st).2).
Proof.
  unfold ToolbarButton, bind, ret. by destruct (useMemo nanoid st).
Qed.

Lemma ToolbarSpacer_unfold props st :
  ToolbarSpacer props st =
    (jsx RouterToolbarItem
       (<["width" := get props "width"]>
          (<["type" := VString (if ToBoolean (get props "width")
                                then "fixedSpacer" else "fluidSpacer")]>
             (<["identifier" := (useMemo nanoid st).1]>
                (delete "width" props)))),
     (useMemo nanoid st).2).
Proof.
  unfold ToolbarSpacer, bind, ret. by destruct (useMemo nanoid st).
Qed.

Lemma ToolbarView_unfold props st :
  ToolbarView props st =
    (jsx RouterToolbarItem
       (<["children" :=
            jsx View
              (<["children" := get props "children"]>
                 {["style" :=
                     VArray [get props "style";
                             VObject {["position" := VString "absolute"]}]]})]>
          (<["identifier" := (useMemo nanoid st).1]>
             (delete "style" (delete "children" props)))),
     (useMemo nanoid st).2).
Proof.
  unfold ToolbarView, bind, ret. by destruct (useMemo nanoid st).
Qed.

Lemma get_insert_eq (o : Props) k v : get (<[k := v]> o) k = v.
Proof. unfold get. by rewrite lookup_insert_eq. Qed.

Lemma get_insert_ne (o : Props) k k' v :
  k <> k' -> get (<[k := v]> o) k' = get o k'.
Proof. intros Hne. unfold get. by rewrite lookup_insert_ne. Qed.

Lemma get_delete_eq (o : Props) k : get (delete k o) k = VUndefined.
Proof. unfold get. by rewrite lookup_delete_eq. Qed.

Lemma get_delete_ne (o : Props) k k' :
  k <> k' -> get (delete k o) k' = get o k'.
Proof. intros Hne. unfold get. by rewrite lookup_delete_ne. Qed.

(** The spacer's classification follows the truthiness of [width]. *)
Lemma ToolbarSpacer_type props st :
  get (item_of ToolbarSpacer props st) "type" =
    VString (if ToBoolean (get props "width")
             then "fixedSpacer" else "fluidSpacer").
Proof.
  unfold item_of. rewrite ToolbarSpacer_unfold. simpl.
  rewrite get_insert_ne by done. apply get_insert_eq.
Qed.

Lemma ToolbarSpacer_width props st :
  get (item_of ToolbarSpacer props st) "width" = get props "width".
Proof.
  unfold item_of. rewrite ToolbarSpacer_unfold. simpl. apply get_insert_eq.
Qed.

(** A width that is neither zero nor NaN classifies as a fixed spacer. *)
Lemma ToolbarSpacer_fixed props st n :
  props !! "width" = Some (VNumber n) ->
  ToBoolean (VNumber n) = true ->
  get (item_of ToolbarSpacer props st) "type" = VString "fixedSpacer"
  /\ get (item_of ToolbarSpacer props st) "width" = VNumber n.
Proof.
  intros Hw Ht. rewrite ToolbarSpacer_type, ToolbarSpacer_width.
  unfold get. rewrite Hw. simpl in *. by rewrite Ht.
Qed.
End RenderFacts.

Section SpacerClaims.
Context `{Engine} `{ReactMode} `{Imports}.

(** C1 (the code at the input where the claim fails): a Spacer given
    [width = 0] is forwarded to the native bridge with the classification
    ['fluidSpacer'], not ['fixedSpacer'], although a width was provided;
    the width [0] itself is forwarded. *)
Theorem ToolbarSpacer_zero_width_is_fluid (props : Props) (st : RenderState) :
  let item :=
    item_of ToolbarSpacer (<["width" := VNumber (number_of_Z 0)]> props) st in
  item !! "type" = Some (VString "fluidSpacer")
  /\ item !! "width" = Some (VNumber (number_of_Z 0)).
Proof.
  simpl. unfold item_of. rewrite ToolbarSpacer_unfold. simpl.
  rewrite get_insert_eq. simpl. split.
  - rewrite lookup_insert_ne by done. apply lookup_insert_eq.
  - apply lookup_insert_eq.
Qed.

(** C2: a Spacer rendered with [width = 20] gives a native item of type
    ['fixedSpacer'] with width [20]; a Spacer rendered with no width gives
    a native item of type ['fluidSpacer'] whose width is [undefined]. *)
Theorem ToolbarSpacer_width_20_and_none (props : Props) (st : RenderState) :
  let fixed :=
    item_of ToolbarSpacer (<["width" := VNumber (number_of_Z 20)]> props) st in
  let fluid := item_of ToolbarSpacer (delete "width" props) st in
  (fixed !! "type" = Some (VString "fixedSpacer")
   /\ fixed !! "width" = Some (VNumber (number_of_Z 20)))
  /\ (fluid !! "type" = Some (VString "fluidSpacer")
      /\ fluid !! "width" = Some VUndefined).
Proof.
  simpl. unfold item_of. rewrite !ToolbarSpacer_unfold. simpl.
  rewrite get_insert_eq, !get_delete_eq. simpl.
  repeat split;
    first [ apply lookup_insert_eq
          | rewrite lookup_insert_ne by done; apply lookup_insert_eq ].
Qed.
End SpacerClaims.

Section ButtonClaims.
Context `{Engine} `{ReactMode} `{Imports}.

Lemma ToolbarButton_title props st :
  item_of ToolbarButton props st !! "title" =
    Some (VString (JsString (get props "children"))).
Proof.
  unfold item_of. rewrite ToolbarButton_unfold. simpl.
  rewrite lookup_insert_ne by done. apply lookup_insert_eq.
Qed.

Lemma ToolbarButton_systemImageName props st :
  item_of ToolbarButton props st !! "systemImageName" =
    Some (get props "sf").
Proof.
  unfold item_of. rewrite ToolbarButton_unfold. simpl.
  apply lookup_insert_eq.
Qed.

Lemma ToolbarButton_onSelected props st :
  item_of ToolbarButton props st !! "onSelected" =
    Some (get props "onPress").
Proof.
  unfold item_of. rewrite ToolbarButton_unfold. simpl.
  do 3 (rewrite lookup_insert_ne by done). apply lookup_insert_eq.
Qed.

(** Every property that the button neither takes apart nor sets itself
    reaches the native item as the caller gave it. *)
Lemma ToolbarButton_frame props st k :
  k ∉ ["children"; "sf"; "onPress";
       "onSelected"; "identifier"; "title"; "systemImageName"] ->
  item_of ToolbarButton props st !! k = props !! k.
Proof.
  intros Hk. unfold item_of. rewrite ToolbarButton_unfold. simpl.
  rewrite !lookup_insert_ne
    by (intros <-; apply Hk; apply (bool_decide_unpack _); by vm_compute).
  rewrite !lookup_delete_ne
    by (intros <-; apply Hk; apply (bool_decide_unpack _); by vm_compute).
  done.
Qed.

(** C3: a Button whose children are the string ["Search"] and that has no
    [sf] hands the native bridge an item whose title is ["Search"] (and
    whose icon name is [undefined]). *)
Theorem ToolbarButton_title_Search (props : Props) (st : RenderState) :
  props !! "children" = Some (VString "Search") ->
  props !! "sf" = None ->
  item_of ToolbarButton props st !! "title" = Some (VString "Search")
  /\ item_of ToolbarButton props st !! "systemImageName" = Some VUndefined.
Proof.
  intros Hc Hsf.
  rewrite ToolbarButton_title, ToolbarButton_systemImageName.
  unfold get. by rewrite Hc, Hsf.
Qed.

(** C9: the button forwards [width], [tintColor], [hidden],
    [sharesBackground] and [hidesSharedBackground] to the native item
    unchanged (present with the same value, or absent on both sides), the
    value of [sf] under the name [systemImageName] and the value of
    [onPress] under the name [onSelected]. *)
Theorem ToolbarButton_forwards_rest (props : Props) (st : RenderState) :
  let item := item_of ToolbarButton props st in
  Forall (fun k => item !! k = props !! k)
    ["width"; "tintColor"; "hidden";
     "sharesBackground"; "hidesSharedBackground"]
  /\ item !! "systemImageName" = Some (get props "sf")
  /\ item !! "onSelected" = Some (get props "onPress").
Proof.
  simpl. split; [|split].
  - repeat constructor; apply ToolbarButton_frame;
      apply (bool_decide_unpack _); by vm_compute.
  - apply ToolbarButton_systemImageName.
  - apply ToolbarButton_onSelected.
Qed.

(** C10: a Button rendered without the [children] prop hands the native
    bridge an item whose title is the string ["undefined"]. *)
Theorem ToolbarButton_title_without_children
    (props : Props) (st : RenderState) :
  props !! "children" = None ->
  item_of ToolbarButton props st !! "title" = Some (VString "undefined").
Proof.
  intros Hc. rewrite ToolbarButton_title. unfold get. by rewrite Hc.
Qed.
End ButtonClaims.

Section ViewClaims.
Context `{Engine} `{ReactMode} `{Imports}.

(** Whatever the first entry is, the flattened pair has the position of
    the second entry. *)
Lemma flattenStyle_container style :
  exists computed,
    flattenStyle
      (VArray [style; VObject {["position" := VString "absolute"]}]) =
      Some computed
    /\ computed !! "position" = Some (VString "absolute").
Proof.
  cbn [flattenStyle foldl].
  eexists. split; [reflexivity|].
  apply lookup_union_Some_l. apply lookup_singleton_eq.
Qed.

(** C4: for every caller-supplied style, the View item wraps its children
    in a [View] container whose style is the array of the caller style
    followed by [{ position: 'absolute' }]; flattened, the position of
    that style is ['absolute'], whatever position the caller style has. *)
Theorem ToolbarView_position_absolute (props : Props) (st : RenderState) :
  let container := get (item_of ToolbarView props st) "children" in
  element_type container = View
  /\ element_props container !! "children" = Some (get props "children")
  /\ element_props container !! "style" =
       Some (VArray [get props "style";
                     VObject {["position" := VString "absolute"]}])
  /\ exists computed,
       flattenStyle (get (element_props container) "style") = Some computed
       /\ computed !! "position" = Some (VString "absolute").
Proof.
  simpl. unfold item_of. rewrite ToolbarView_unfold. simpl.
  rewrite get_insert_eq. simpl. split; [done|].
  split; [apply lookup_insert_eq|].
  split.
  - rewrite lookup_insert_ne by done. apply lookup_singleton_eq.
  - rewrite get_insert_ne by done. unfold get.
    rewrite lookup_singleton_eq. simpl.
    apply flattenStyle_container.
Qed.
End ViewClaims.

Section HostClaims.
Context `{Imports}.

(** C8: for every props object, the root Toolbar returns the
    preview-visibility provider given the value
    [{ isVisible: false, href: '' }] and, as its only child, the native
    host element carrying exactly the props the Toolbar received. *)
Theorem ToolbarHost_provider_and_passthrough (props : Props) :
  let provider := ToolbarHost props in
  let host := get (element_props provider) "children" in
  element_type provider = InternalLinkPreviewContext
  /\ dom (element_props provider) = {["value"; "children"]}
  /\ get (element_props provider) "value" =
       VObject (list_to_map [("isVisible", VBool false);
                             ("href", VString "")])
  /\ element_type host = RouterToolbarHost
  /\ element_props host = props.
Proof.
  simpl. unfold ToolbarHost, jsx. simpl.
  rewrite get_insert_eq, get_insert_ne by done. unfold get.
  rewrite lookup_singleton_eq. simpl.
  split; [done|]. split; [|done].
  rewrite dom_insert_L, dom_singleton_L. set_solver.
Qed.
End HostClaims.

Section IndexClaims.
Context `{Imports}.

(** C7: [Toolbar.Menu] and [Toolbar.MenuAction] hold the very values
    imported as [LinkMenu] and [LinkMenuAction], so an element made from
    [Toolbar.Menu] is the element made from [LinkMenu]; the export is the
    [ToolbarHost] function object itself. *)
Theorem Toolbar_Menu_is_LinkMenu :
  ToolbarMenu = LinkMenu
  /\ ToolbarMenuAction = LinkMenuAction
  /\ properties Toolbar !! "Menu" = Some LinkMenu
  /\ properties Toolbar !! "MenuAction" = Some LinkMenuAction
  /\ ref Toolbar = "ToolbarHost"
  /\ (forall props : Props,
        jsx (get (properties Toolbar) "Menu") props = jsx LinkMenu props)
  /\ (forall props : Props,
        jsx (get (properties Toolbar) "MenuAction") props =
          jsx LinkMenuAction props).
Proof.
  assert (HM : properties Toolbar !! "Menu" = Some LinkMenu).
  { unfold Toolbar, Object_assign; simpl.
    do 4 (rewrite lookup_insert_ne by done). apply lookup_insert_eq. }
  assert (HA : properties Toolbar !! "MenuAction" = Some LinkMenuAction).
  { unfold Toolbar, Object_assign; simpl.
    do 3 (rewrite lookup_insert_ne by done). apply lookup_insert_eq. }
  repeat split; try done; intros props; unfold get.
  all: by rewrite ?HM, ?HA.
Qed.
End IndexClaims.

Section IdentifierClaims.
Context `{Engine} `{ReactMode} `{Imports}.

(** Each of the three components reads its identifier from
    [useMemo nanoid] and leaves the state that call leaves. *)
Lemma component_identifier k props st :
  element_props (component k props st).1 !! "identifier" =
    Some (useMemo nanoid st).1
  /\ (component k props st).2 = (useMemo nanoid st).2.
Proof.
  destruct k; simpl.
  - rewrite ToolbarButton_unfold. simpl. split; [|done].
    do 2 (rewrite lookup_insert_ne by done). apply lookup_insert_eq.
  - rewrite ToolbarSpacer_unfold. simpl. split; [|done].
    do 2 (rewrite lookup_insert_ne by done). apply lookup_insert_eq.
  - rewrite ToolbarView_unfold. simpl. split; [|done].
    rewrite lookup_insert_ne by done. apply lookup_insert_eq.
Qed.

(** A render at [i] in one equation: the identifier handed over, the
    counter and the cell stored are those of [useMemo nanoid]. *)
Lemma step_render t i k props :
  let st := {| calls := generated t; hook := cell_for t i k |} in
  identifier_of (step t (RenderAt i k props)).2 = (useMemo nanoid st).1
  /\ (step t (RenderAt i k props)).1 =
       {| generated := calls (useMemo nanoid st).2;
          mounted := <[i := {| kind := k;
                               memo := hook (useMemo nanoid st).2 |}]>
                       (mounted t) |}.
Proof.
  simpl. pose proof (component_identifier k props
    {| calls := generated t; hook := cell_for t i k |}) as [Hid Hst].
  destruct (component k props _) as [el st'] eqn:Hc. simpl in *.
  unfold get. rewrite Hid. by subst st'.
Qed.

(** A render of a mounted instance that has its identifier. *)
Lemma step_render_hit t i k props v :
  mounted t !! i = Some {| kind := k; memo := Some v |} ->
  identifier_of (step t (RenderAt i k props)).2 = v
  /\ (step t (RenderAt i k props)).1 = t.
Proof.
  intros Hi. destruct (step_render t i k props) as [Hid Ht].
  assert (Hcell : cell_for t i k = Some v).
  { unfold cell_for. rewrite Hi. simpl. by rewrite decide_True. }
  rewrite Hcell in Hid, Ht.
  rewrite (useMemo_nanoid_hit _ v) in Hid, Ht by done. simpl in *.
  split; [done|]. rewrite Ht. rewrite insert_id by done. by destruct t.
Qed.

(** After any render at [i], the instance there holds the identifier that
    the render handed over. *)
Lemma step_render_stores t i k props :
  mounted (step t (RenderAt i k props)).1 !! i =
    Some {| kind := k;
            memo := Some (identifier_of (step t (RenderAt i k props)).2) |}.
Proof.
  destruct (step_render t i k props) as [Hid Ht]. rewrite Hid, Ht. simpl.
  rewrite lookup_insert_eq. do 2 f_equal.
  destruct (cell_for t i k) as [v|] eqn:Hcell.
  - by rewrite (useMemo_nanoid_hit _ v).
  - by rewrite useMemo_nanoid_miss.
Qed.

(** Events that keep the instance at [i] mounted leave it as it is. *)
Lemma step_keeps t i k v e :
  keeps_mounted i k e = true ->
  mounted t !! i = Some {| kind := k; memo := Some v |} ->
  mounted (step t e).1 !! i = Some {| kind := k; memo := Some v |}.
Proof.
  intros Hk Hi. destruct e as [j k' props|j]; simpl in Hk.
  - apply bool_decide_eq_true in Hk.
    destruct (decide (j = i)) as [->|Hne].
    + rewrite (Hk eq_refl).
      destruct (step_render_hit t i k props v Hi) as [_ ->]. done.
    + destruct (step_render t j k' props) as [_ ->]. simpl.
      by rewrite lookup_insert_ne.
  - apply bool_decide_eq_true in Hk. simpl. by rewrite lookup_delete_ne.
Qed.

Lemma run_keeps events : forall t i k v,
  forallb (keeps_mounted i k) events = true ->
  mounted t !! i = Some {| kind := k; memo := Some v |} ->
  mounted (run t events) !! i = Some {| kind := k; memo := Some v |}.
Proof.
  induction events as [|e events IH]; intros t i k v Hall Hi; [done|].
  simpl in Hall. apply andb_true_iff in Hall as [He Hall].
  simpl. apply IH; [done|]. by apply step_keeps.
Qed.

(** The count of generated identifiers never goes down. *)
Lemma step_generated t e : generated t <= generated (step t e).1.
Proof.
  destruct e as [i k props|i]; [|simpl; lia].
  destruct (step_render t i k props) as [_ ->]. simpl.
  destruct (cell_for t i k) as [v|] eqn:Hcell.
  - rewrite (useMemo_nanoid_hit _ v) by done. simpl. lia.
  - rewrite useMemo_nanoid_miss by done. simpl. lia.
Qed.

(** Every mounted instance holds an identifier that the generator has
    returned. *)
Lemma step_issued t e :
  (forall i inst, mounted t !! i = Some inst ->
     exists n, n < generated t
               /\ memo inst = Some (VString (nanoid_output n))) ->
  forall i inst, mounted (step t e).1 !! i = Some inst ->
    exists n, n < generated (step t e).1
              /\ memo inst = Some (VString (nanoid_output n)).
Proof.
  intros Hall i inst Hi.
  pose proof (step_generated t e) as Hgen.
  destruct e as [j k props|j].
  - destruct (step_render t j k props) as [_ Hstep].
    rewrite Hstep in Hi |- *. clear Hstep. simpl in *.
    destruct (decide (j = i)) as [->|Hne].
    + rewrite lookup_insert_eq in Hi. injection Hi as <-. simpl.
      destruct (cell_for t i k) as [v|] eqn:Hcell.
      * rewrite (useMemo_nanoid_hit _ v) by done. simpl.
        unfold cell_for in Hcell.
        destruct (mounted t !! i) as [inst|] eqn:Hti; [|done].
        case_decide; [|done].
        destruct (Hall i inst Hti) as (n & Hn & Hm). exists n.
        split; [done|]. congruence.
      * rewrite useMemo_nanoid_miss by done. simpl.
        exists (discarded_before + generated t). split; [lia|done].
    + rewrite lookup_insert_ne in Hi by done.
      destruct (Hall i inst Hi) as (n & Hn & Hm). exists n.
      split; [|done].
      destruct (cell_for t j k) as [v|] eqn:Hcell.
      * by rewrite (useMemo_nanoid_hit _ v).
      * rewrite useMemo_nanoid_miss by done. simpl. lia.
  - simpl in *. apply lookup_delete_Some in Hi as [_ Hi]. eauto.
Qed.

Lemma run_issued events : forall t,
  (forall i inst, mounted t !! i = Some inst ->
     exists n, n < generated t
               /\ memo inst = Some (VString (nanoid_output n))) ->
  forall i inst, mounted (run t events) !! i = Some inst ->
    exists n, n < generated (run t events)
              /\ memo inst = Some (VString (nanoid_output n)).
Proof.
  induction events as [|e events IH]; intros t Hall; [done|].
  simpl. apply IH. by apply step_issued.
Qed.

(** A render that starts from an empty cell hands over an output that the
    generator had not returned before this render. *)
Lemma fresh_identifier t i k props :
  cell_for t i k = None ->
  exists n,
    generated t <= n < generated (step t (RenderAt i k props)).1
    /\ identifier_of (step t (RenderAt i k props)).2 =
         VString (nanoid_output n).
Proof.
  intros Hcell. destruct (step_render t i k props) as [-> ->].
  rewrite Hcell. rewrite useMemo_nanoid_miss by done. simpl.
  exists (discarded_before + generated t). split; [lia|done].
Qed.

(** C6: the identifier of an instance of Button, Spacer or View is a
    string that the generator returned, generated by the render that mounts
    the instance and kept in the memo cell of the instance; every later
    render of the instance hands the native bridge the same identifier and
    generates nothing, for all props and whatever happens in between to
    other instances, as long as the instance itself is not unmounted or
    replaced by an instance of another component. *)
Theorem identifier_stable_across_renders
    (before : list Event) (i : nat) (k : Kind) (props props' : Props)
    (events : list Event) :
  forallb (keeps_mounted i k) events = true ->
  let t := run empty_tree before in
  let first := step t (RenderAt i k props) in
  let later := step (run first.1 events) (RenderAt i k props') in
  (exists n, n < generated first.1
             /\ identifier_of first.2 = VString (nanoid_output n))
  /\ (cell_for t i k = None ->
      exists n, generated t <= n < generated first.1
                /\ identifier_of first.2 = VString (nanoid_output n))
  /\ mounted (run first.1 events) !! i =
       Some {| kind := k; memo := Some (identifier_of first.2) |}
  /\ identifier_of later.2 = identifier_of first.2
  /\ later.1 = run first.1 events.
Proof.
  intros Hall t first later. subst first later.
  pose proof (step_render_stores t i k props) as Hstored.
  split; [|split; [|split]].
  - assert (Hissued : forall j inst,
              mounted (run t [RenderAt i k props]) !! j = Some inst ->
              exists n, n < generated (run t [RenderAt i k props])
                        /\ memo inst = Some (VString (nanoid_output n))).
    { apply run_issued. apply run_issued.
      intros j inst Hj. simpl in Hj. by rewrite lookup_empty in Hj. }
    destruct (Hissued i _ Hstored) as (n & Hn & Hm).
    exists n. split; [exact Hn|]. cbn [memo] in Hm. by injection Hm.
  - apply fresh_identifier.
  - by apply run_keeps.
  - eapply run_keeps in Hstored; [|exact Hall].
    by destruct (step_render_hit _ i k props' _ Hstored) as [-> ->].
Qed.
End IdentifierClaims.

Section DistinctIdentifiers.
Context `{Engine} `{ReactMode} `{Imports}.

(** The contract of the identifier generator: no two calls return the
    same string. *)
Hypothesis nanoid_fresh :
  forall m n, nanoid_output m = nanoid_output n -> m = n.

Lemma tree_ok_empty : tree_ok empty_tree.
Proof.
  assert (Hnone : forall i n, ~ issued_at empty_tree i n).
  { intros i n (inst & Hi & _). simpl in Hi. by rewrite lookup_empty in Hi. }
  split; [|split].
  - intros i inst Hi. simpl in Hi. by rewrite lookup_empty in Hi.
  - intros i n Hn. by apply Hnone in Hn.
  - intros i j n _ Hn. by apply Hnone in Hn.
Qed.

Lemma issued_at_insert_eq t g i k v n :
  issued_at {| generated := g;
               mounted := <[i := {| kind := k; memo := Some v |}]>
                            (mounted t) |} i n
  <-> v = VString (nanoid_output n).
Proof.
  unfold issued_at; simpl. rewrite lookup_insert_eq. split.
  - intros (inst & [= <-] & Hm). simpl in Hm. congruence.
  - intros ->. eexists. split; [reflexivity|done].
Qed.

Lemma issued_at_insert_ne t g i j inst n :
  i <> j ->
  issued_at {| generated := g; mounted := <[i := inst]> (mounted t) |} j n
  <-> issued_at t j n.
Proof.
  intros Hne. unfold issued_at; simpl. by rewrite lookup_insert_ne.
Qed.

Lemma tree_ok_render t i k props :
  tree_ok t -> tree_ok (step t (RenderAt i k props)).1.
Proof.
  intros (Hsome & Hlt & Hdiff).
  destruct (step_render t i k props) as [_ ->].
  destruct (cell_for t i k) as [v|] eqn:Hcell.
  - (* the instance is mounted and keeps its identifier *)
    unfold cell_for in Hcell.
    destruct (mounted t !! i) as [[k0 m0]|] eqn:Hi; [|done].
    simpl in Hcell. case_decide; [|done]. subst k0 m0.
    rewrite (useMemo_nanoid_hit _ v) by done. simpl.
    rewrite insert_id by done.
    by replace {| generated := generated t; mounted := mounted t |}
      with t by (by destruct t).
  - (* the instance is mounted by this render, with a new identifier *)
    rewrite useMemo_nanoid_miss by done. simpl.
    split; [|split].
    + intros j inst Hj. destruct (decide (i = j)) as [<-|Hne].
      * exists (discarded_before + generated t).
        by apply issued_at_insert_eq.
      * simpl in Hj. rewrite lookup_insert_ne in Hj by done.
        destruct (Hsome j inst Hj) as [n Hn]. exists n.
        by apply issued_at_insert_ne.
    + intros j n Hn. destruct (decide (i = j)) as [<-|Hne].
      * apply issued_at_insert_eq in Hn. injection Hn as Hn.
        apply nanoid_fresh in Hn. simpl. lia.
      * apply issued_at_insert_ne in Hn; [|done].
        apply Hlt in Hn. simpl. lia.
    + intros a b n Hab Ha Hb.
      destruct (decide (i = a)) as [<-|Hia].
      * apply issued_at_insert_eq in Ha. injection Ha as Ha.
        apply nanoid_fresh in Ha. subst n.
        apply issued_at_insert_ne in Hb; [|done].
        apply Hlt in Hb. lia.
      * apply issued_at_insert_ne in Ha; [|done].
        destruct (decide (i = b)) as [<-|Hib].
        -- apply issued_at_insert_eq in Hb. injection Hb as Hb.
           apply nanoid_fresh in Hb. subst n.
           apply Hlt in Ha. lia.
        -- apply issued_at_insert_ne in Hb; [|done].
           by apply (Hdiff a b n).
Qed.

Lemma tree_ok_unmount t i :
  tree_ok t -> tree_ok (step t (UnmountAt i)).1.
Proof.
  intros (Hsome & Hlt & Hdiff).
  assert (Hsub : forall j n,
    issued_at (step t (UnmountAt i)).1 j n -> issued_at t j n).
  { intros j n (inst & Hj & Hm). simpl in Hj.
    apply lookup_delete_Some in Hj as [_ Hj]. by exists inst. }
  split; [|split].
  - intros j inst Hj. simpl in Hj.
    apply lookup_delete_Some in Hj as [Hne Hj].
    destruct (Hsome j inst Hj) as (n & inst' & Hj' & Hm).
    exists n, inst'. simpl. by rewrite lookup_delete_ne.
  - intros j n Hn. apply Hsub in Hn. by apply Hlt in Hn.
  - intros a b n Hab Ha Hb. apply Hsub in Ha, Hb. by apply (Hdiff a b n).
Qed.

Lemma tree_ok_run events : forall t, tree_ok t -> tree_ok (run t events).
Proof.
  induction events as [|e events IH]; intros t Hok; [done|].
  simpl. apply IH. destruct e.
  - by apply tree_ok_render.
  - by apply tree_ok_unmount.
Qed.

(** In a tree that is in order, the instances mounted at two positions
    hand different identifiers to the native bridge. *)
Lemma identifiers_distinct t i j ki kj props_i props_j mi mj :
  tree_ok t ->
  i <> j ->
  mounted t !! i = Some {| kind := ki; memo := mi |} ->
  mounted t !! j = Some {| kind := kj; memo := mj |} ->
  identifier_of (step t (RenderAt i ki props_i)).2 <>
    identifier_of (step t (RenderAt j kj props_j)).2.
Proof.
  intros (Hsome & Hlt & Hdiff) Hij Hi Hj.
  destruct (Hsome _ _ Hi) as (ni & insti & Hi' & Hmi).
  destruct (Hsome _ _ Hj) as (nj & instj & Hj' & Hmj).
  rewrite Hi in Hi'. injection Hi' as <-. simpl in Hmi. subst mi.
  rewrite Hj in Hj'. injection Hj' as <-. simpl in Hmj. subst mj.
  destruct (step_render_hit t i ki props_i _ Hi) as [-> _].
  destruct (step_render_hit t j kj props_j _ Hj) as [-> _].
  intros Heq. injection Heq as Heq. apply nanoid_fresh in Heq. subst nj.
  apply (Hdiff i j ni Hij); eexists; eauto.
Qed.

(** C5, as amended: provided the generator never returns the same string
    twice, two Button instances mounted at different positions hand
    different identifiers to the native bridge, whatever renders and
    unmounts built the tree.  The components do not compare identifiers
    themselves, so without the proviso the identifiers can coincide (see
    [Button_identifiers_collide]). *)
Theorem Button_identifiers_distinct
    (events : list Event) (i j : nat) (props_i props_j : Props)
    (mi mj : option Value) :
  let t := run empty_tree events in
  i <> j ->
  mounted t !! i = Some {| kind := Button; memo := mi |} ->
  mounted t !! j = Some {| kind := Button; memo := mj |} ->
  identifier_of (step t (RenderAt i Button props_i)).2 <>
    identifier_of (step t (RenderAt j Button props_j)).2.
Proof.
  intros t Hij Hi Hj.
  apply (identifiers_distinct t i j Button Button props_i props_j mi mj);
    try done.
  apply tree_ok_run, tree_ok_empty.
Qed.
End DistinctIdentifiers.

(** * The claims on concrete inputs *)

Section Samples.
#[local] Existing Instance sample_engine.
#[local] Existing Instance production.
#[local] Existing Instance sample_imports.

(** [<Toolbar.Button hidden sf="mic" />], first render. *)
Example ToolbarButton_mic :
  item_of ToolbarButton
    (<["sf" := VString "mic"]> {["hidden" := VBool true]}) fresh =
  list_to_map [("hidden", VBool true);
               ("onSelected", VUndefined);
               ("identifier", VString "0");
               ("title", VString "undefined");
               ("systemImageName", VString "mic")].
Proof. vm_compute. reflexivity. Qed.

(** Children that are not a string are converted all the same. *)
Example ToolbarButton_title_of_array :
  item_of ToolbarButton
    {["children" := VArray [VString "Item "; VNumber (number_of_Z 3);
                            VNull; VBool true]]} fresh
    !! "title" = Some (VString "Item ,3,,true").
Proof. vm_compute. reflexivity. Qed.

(** [<Toolbar.Spacer width={NaN} />] classifies as fluid as well. *)
Example ToolbarSpacer_NaN :
  item_of ToolbarSpacer {["width" := VNumber S754_nan]} fresh !! "type" =
    Some (VString "fluidSpacer").
Proof. vm_compute. reflexivity. Qed.

(** A caller style with a position of its own. *)
Example flattenStyle_relative :
  flattenStyle
    (get (element_props
            (get (item_of ToolbarView
                    {["style" :=
                        VObject (<["position" := VString "relative"]>
                                   {["width" := VNumber (number_of_Z 200)]})]}
                    fresh) "children")) "style") =
  Some (<["position" := VString "absolute"]>
          {["width" := VNumber (number_of_Z 200)]}).
Proof. vm_compute. reflexivity. Qed.

Example sample_tree :
  run empty_tree sample_events =
    {| generated := 4;
       mounted := list_to_map
         [(0, {| kind := Button; memo := Some (VString "0") |});
          (1, {| kind := Button; memo := Some (VString "3") |});
          (2, {| kind := Button; memo := Some (VString "2") |})] |}.
Proof. vm_compute. reflexivity. Qed.

Lemma ToolbarButton_title_Search_witness :
  let props : Props :=
    <["hidden" := VBool false]> {["children" := VString "Search"]} in
  props !! "children" = Some (VString "Search")
  /\ props !! "sf" = None
  /\ item_of ToolbarButton props fresh !! "title" = Some (VString "Search")
  /\ item_of ToolbarButton props fresh !! "systemImageName" =
       Some VUndefined.
Proof.
  intros props.
  split; [reflexivity|]. split; [reflexivity|].
  apply (ToolbarButton_title_Search props fresh); reflexivity.
Defined.

Lemma ToolbarButton_title_without_children_witness :
  let props : Props := {["sf" := VString "magnifyingglass"]} in
  props !! "children" = None
  /\ item_of ToolbarButton props fresh !! "title" =
       Some (VString "undefined").
Proof.
  intros props. split; [reflexivity|].
  apply (ToolbarButton_title_without_children props fresh). reflexivity.
Defined.

Lemma identifier_stable_across_renders_witness :
  let before := [RenderAt 2 Button ∅] in
  let events :=
    [RenderAt 1 Button ∅;
     RenderAt 0 Spacer {["width" := VNumber (number_of_Z 20)]};
     UnmountAt 1] in
  let t := run empty_tree before in
  let first := step t (RenderAt 0 Spacer ∅) in
  let later := step (run first.1 events) (RenderAt 0 Spacer ∅) in
  forallb (keeps_mounted 0 Spacer) events = true
  /\ (exists n, n < generated first.1
                /\ identifier_of first.2 = VString (nanoid_output n))
  /\ (cell_for t 0 Spacer = None ->
      exists n, generated t <= n < generated first.1
                /\ identifier_of first.2 = VString (nanoid_output n))
  /\ mounted (run first.1 events) !! 0 =
       Some {| kind := Spacer; memo := Some (identifier_of first.2) |}
  /\ identifier_of later.2 = identifier_of first.2
  /\ later.1 = run first.1 events.
Proof.
  intros before events t first later. split; [reflexivity|].
  apply (identifier_stable_across_renders before 0 Spacer ∅ ∅ events).
  reflexivity.
Defined.

Lemma Button_identifiers_distinct_witness :
  let t := run empty_tree sample_events in
  (forall m n : nat, nanoid_output m = nanoid_output n -> m = n)
  /\ 0 <> 2
  /\ mounted t !! 0 = Some {| kind := Button; memo := Some (VString "0") |}
  /\ mounted t !! 2 = Some {| kind := Button; memo := Some (VString "2") |}
  /\ identifier_of (step t (RenderAt 0 Button ∅)).2 <>
       identifier_of (step t (RenderAt 2 Button ∅)).2.
Proof.
  intros t.
  assert (Hfresh : forall m n : nat,
            nanoid_output m = nanoid_output n -> m = n)
    by (intros m n Hmn; exact (pretty_nat_inj m n Hmn)).
  split; [exact Hfresh|]. split; [lia|].
  split; [reflexivity|]. split; [reflexivity|].
  apply (Button_identifiers_distinct Hfresh sample_events 0 2 ∅ ∅
           (Some (VString "0")) (Some (VString "2")));
    [lia | reflexivity | reflexivity].
Defined.
End Samples.

Section Collision.
#[local] Existing Instance sample_engine.
#[local] Existing Instance production.
#[local] Existing Instance repeating_imports.

(** C5 as stated, without a proviso on the generator, fails: when the
    generator returns the same string twice, two Buttons mounted at
    positions 0 and 1 hand the same identifier to the native bridge. *)
Lemma Button_identifiers_collide :
  let t := run empty_tree [RenderAt 0 Button ∅; RenderAt 1 Button ∅] in
  0 <> 1
  /\ mounted t !! 0 =
       Some {| kind := Button;
               memo := Some (VString "V1StGXR8_Z5jdHi6B-myT") |}
  /\ mounted t !! 1 =
       Some {| kind := Button;
               memo := Some (VString "V1StGXR8_Z5jdHi6B-myT") |}
  /\ identifier_of (step t (RenderAt 0 Button ∅)).2 =
       identifier_of (step t (RenderAt 1 Button ∅)).2.
Proof. intros t. split; [lia|]. repeat split; reflexivity. Qed.
End Collision.

Section Development.
#[local] Existing Instance sample_engine.
#[local] Existing Instance development.
#[local] Existing Instance sample_imports.

(** In development under StrictMode each mount runs the generator twice:
    two mounts and one further render make four calls, and the instances
    keep the first output of their mount. *)
Example development_tree :
  run empty_tree [RenderAt 0 Button ∅; RenderAt 1 Spacer ∅;
                  RenderAt 0 Button {["sf" := VString "mic"]}] =
    {| generated := 4;
       mounted := list_to_map
         [(0, {| kind := Button; memo := Some (VString "0") |});
          (1, {| kind := Spacer; memo := Some (VString "2") |})] |}.
Proof. vm_compute. reflexivity. Qed.
End Development.

(** * Further properties of the components *)

Section ButtonItem.
Context `{Engine} `{ReactMode} `{Imports}.

(** The property names of a Button item: the four names the button sets
    itself, and every name of the caller's props except the three the
    button takes apart. *)
Theorem ToolbarButton_item_names (props : Props) (st : RenderState) :
  dom (item_of ToolbarButton props st) =
    {["onSelected"; "identifier"; "title"; "systemImageName"]}
    ∪ (dom props ∖ {["children"; "sf"; "onPress"]}).
Proof.
  unfold item_of. rewrite ToolbarButton_unfold. simpl.
  rewrite !dom_insert_L, !dom_delete_L.
  apply set_eq. intros k.
  repeat (rewrite elem_of_union || rewrite elem_of_difference
          || rewrite elem_of_singleton).
  tauto.
Qed.

(** A caller cannot choose what the item carries under the names the
    button sets itself: a value given for [onSelected], [identifier],
    [title] or [systemImageName] is written over. *)
Theorem ToolbarButton_overrides (props : Props) (st : RenderState)
    (k : string) (v : Value) :
  k ∈ ["onSelected"; "identifier"; "title"; "systemImageName"] ->
  item_of ToolbarButton (<[k := v]> props) st =
    item_of ToolbarButton props st.
Proof.
  intros Hk.
  assert (Hcases : k = "onSelected" \/ k = "identifier"
                   \/ k = "title" \/ k = "systemImageName").
  { rewrite !elem_of_cons, elem_of_nil in Hk. tauto. }
  unfold item_of. rewrite !ToolbarButton_unfold. simpl.
  destruct Hcases as [->|[->|[->| ->]]];
    rewrite !get_insert_ne by done;
    apply map_eq; intros j;
    rewrite !lookup_insert, !lookup_delete, !lookup_insert;
    repeat case_decide; try done; congruence.
Qed.

Lemma JsString_items_of_strings (ss : list string) :
  map (fun item => match item with
                   | VUndefined | VNull => ""
                   | _ => JsString item
                   end) (VString <$> ss) = ss.
Proof. induction ss as [|s ss IH]; [done|]. simpl. by f_equal. Qed.

(** When the children of a Button are an array of strings, as for a label
    written in several pieces, the title is the pieces joined by commas. *)
Theorem ToolbarButton_title_of_strings (props : Props) (st : RenderState)
    (pieces : list string) :
  props !! "children" = Some (VArray (VString <$> pieces)) ->
  item_of ToolbarButton props st !! "title" =
    Some (VString (join "," pieces)).
Proof.
  intros Hc. rewrite ToolbarButton_title. unfold get. rewrite Hc. simpl.
  by rewrite JsString_items_of_strings.
Qed.
End ButtonItem.

Section SpacerItem.
Context `{Engine} `{ReactMode} `{Imports}.

(** For a numeric width the spacer is classified as fixed exactly when the
    width is neither a zero (of either sign) nor NaN, and as fluid
    otherwise; so negative and infinite widths give a fixed spacer. *)
Theorem ToolbarSpacer_fixed_iff (props : Props) (st : RenderState)
    (n : number) :
  props !! "width" = Some (VNumber n) ->
  let item := item_of ToolbarSpacer props st in
  (item !! "type" = Some (VString "fixedSpacer")
   <-> (forall sign, n <> S754_zero sign) /\ n <> S754_nan)
  /\ (item !! "type" = Some (VString "fluidSpacer")
      <-> (exists sign, n = S754_zero sign) \/ n = S754_nan).
Proof.
  intros Hw item.
  assert (Htype : item !! "type" =
            Some (VString (if ToBoolean (VNumber n)
                           then "fixedSpacer" else "fluidSpacer"))).
  { subst item. unfold item_of. rewrite ToolbarSpacer_unfold. simpl.
    rewrite lookup_insert_ne by done. rewrite lookup_insert_eq.
    unfold get. by rewrite Hw. }
  rewrite Htype. clear Htype Hw.
  destruct n as [sign|sign| |sign m e]; simpl; split; split; intros Hx.
  all: try done.
  all: try (split; [intros ?|]; done).
  all: try (left; by eexists).
  all: try (right; done).
  all: try (destruct Hx as [[? ?]|?]; done).
  - destruct Hx as [Hz _]. by destruct (Hz sign).
  - by destruct Hx as [_ Hn].
Qed.

(** The spacer hands on every property it does not set itself as the
    caller gave it: [hidden], [sharesBackground], [hidesSharedBackground]
    and whatever else the props carry. *)
Theorem ToolbarSpacer_frame (props : Props) (st : RenderState) (k : string) :
  k ∉ ["width"; "type"; "identifier"] ->
  item_of ToolbarSpacer props st !! k = props !! k.
Proof.
  intros Hk. unfold item_of. rewrite ToolbarSpacer_unfold. simpl.
  rewrite !lookup_insert_ne
    by (intros <-; apply Hk; apply (bool_decide_unpack _); by vm_compute).
  rewrite !lookup_delete_ne
    by (intros <-; apply Hk; apply (bool_decide_unpack _); by vm_compute).
  done.
Qed.

(** The spacer item always carries [width], [type] and [identifier], next
    to the names of the caller's props; and a [type] or [identifier] given
    by the caller is written over. *)
Theorem ToolbarSpacer_item_names (props : Props) (st : RenderState)
    (v : Value) :
  dom (item_of ToolbarSpacer props st) =
    {["identifier"; "type"; "width"]} ∪ dom props
  /\ item_of ToolbarSpacer (<["type" := v]> props) st =
       item_of ToolbarSpacer props st
  /\ item_of ToolbarSpacer (<["identifier" := v]> props) st =
       item_of ToolbarSpacer props st.
Proof.
  unfold item_of. rewrite !ToolbarSpacer_unfold. simpl. split; [|split].
  - rewrite !dom_insert_L, !dom_delete_L.
    apply set_eq. intros k.
    repeat (rewrite elem_of_union || rewrite elem_of_difference
            || rewrite elem_of_singleton).
    destruct (decide (k = "width")); tauto.
  - rewrite !get_insert_ne by done. apply map_eq. intros j.
    rewrite !lookup_insert, !lookup_delete, !lookup_insert.
    repeat case_decide; try done; congruence.
  - rewrite !get_insert_ne by done. apply map_eq. intros j.
    rewrite !lookup_insert, !lookup_delete, !lookup_insert.
    repeat case_decide; try done; congruence.
Qed.
End SpacerItem.

Section ViewItem.
Context `{Engine} `{ReactMode} `{Imports}.

(** The View item carries [identifier] and [children] and every name of
    the caller's props except [style]: the style goes to the positioning
    container only. *)
Theorem ToolbarView_item_names (props : Props) (st : RenderState) :
  dom (item_of ToolbarView props st) =
    {["identifier"; "children"]} ∪ (dom props ∖ {["style"]})
  /\ item_of ToolbarView props st !! "style" = None.
Proof.
  unfold item_of. rewrite ToolbarView_unfold. simpl. split.
  - rewrite !dom_insert_L, !dom_delete_L.
    apply set_eq. intros k.
    repeat (rewrite elem_of_union || rewrite elem_of_difference
            || rewrite elem_of_singleton).
    destruct (decide (k = "children")); tauto.
  - do 2 (rewrite lookup_insert_ne by done). apply lookup_delete_eq.
Qed.

(** The View item hands on every property other than [children], [style]
    and [identifier] as the caller gave it. *)
Theorem ToolbarView_frame (props : Props) (st : RenderState) (k : string) :
  k ∉ ["children"; "style"; "identifier"] ->
  item_of ToolbarView props st !! k = props !! k.
Proof.
  intros Hk. unfold item_of. rewrite ToolbarView_unfold. simpl.
  rewrite !lookup_insert_ne
    by (intros <-; apply Hk; apply (bool_decide_unpack _); by vm_compute).
  rewrite !lookup_delete_ne
    by (intros <-; apply Hk; apply (bool_decide_unpack _); by vm_compute).
  done.
Qed.

(** The flattened style of the positioning container is the flattened
    caller style with [position] set to ['absolute']: every other style
    property of the caller is kept, and a caller without a style gets the
    position alone. *)
Theorem ToolbarView_container_style (props : Props) (st : RenderState) :
  let container := get (item_of ToolbarView props st) "children" in
  flattenStyle (get (element_props container) "style") =
    Some (<["position" := VString "absolute"]>
            (default ∅ (flattenStyle (get props "style")))).
Proof.
  simpl. unfold item_of. rewrite ToolbarView_unfold. simpl.
  rewrite get_insert_eq. simpl.
  rewrite get_insert_ne by done. unfold get at 1.
  rewrite lookup_singleton_eq. simpl.
  f_equal. rewrite <- insert_union_singleton_l. f_equal.
  destruct (flattenStyle (get props "style")) as [computed|]; simpl;
    [apply (right_id_L ∅ (∪))|done].
Qed.
End ViewItem.

Section GeneratedIdentifiers.
Context `{Engine} `{ReactMode} `{Imports}.

(** Whatever renders and unmounts came before, the identifier a render
    hands to the native bridge is a string: one of the outputs that the
    generator has returned by then. *)
Theorem identifier_is_generated (events : list Event) (i : nat) (k : Kind)
    (props : Props) :
  let after := step (run empty_tree events) (RenderAt i k props) in
  exists n, n < generated after.1
            /\ identifier_of after.2 = VString (nanoid_output n).
Proof.
  simpl.
  pose proof (step_render_stores (run empty_tree events) i k props) as Hst.
  assert (Hall : forall j inst,
            mounted (run (run empty_tree events) [RenderAt i k props]) !! j
              = Some inst ->
            exists n,
              n < generated (run (run empty_tree events) [RenderAt i k props])
              /\ memo inst = Some (VString (nanoid_output n))).
  { apply run_issued. apply run_issued.
    intros j inst Hj. simpl in Hj. by rewrite lookup_empty in Hj. }
  simpl in Hall. destruct (Hall i _ Hst) as (n & Hn & Hm).
  exists n. split; [done|]. simpl in Hm. congruence.
Qed.
End GeneratedIdentifiers.

Section FreshIdentifiers.
Context `{Engine} `{ReactMode} `{Imports}.

Hypothesis nanoid_fresh :
  forall m n, nanoid_output m = nanoid_output n -> m = n.

(** Distinctness holds across the three components: a Button, a Spacer
    and a View mounted at different positions hand different identifiers
    to the native bridge (given a generator that never repeats). *)
Theorem identifiers_distinct_all_kinds
    (events : list Event) (i j : nat) (ki kj : Kind)
    (props_i props_j : Props) (mi mj : option Value) :
  let t := run empty_tree events in
  i <> j ->
  mounted t !! i = Some {| kind := ki; memo := mi |} ->
  mounted t !! j = Some {| kind := kj; memo := mj |} ->
  identifier_of (step t (RenderAt i ki props_i)).2 <>
    identifier_of (step t (RenderAt j kj props_j)).2.
Proof.
  intros t Hij Hi Hj.
  apply (identifiers_distinct nanoid_fresh t i j ki kj props_i props_j mi mj);
    try done.
  apply (tree_ok_run nanoid_fresh), tree_ok_empty.
Qed.

(** The identifier of a mounted instance, and the index of the call that
    returned it. *)
Lemma mounted_identifier t i k mi props :
  tree_ok t ->
  mounted t !! i = Some {| kind := k; memo := mi |} ->
  exists n, n < generated t
            /\ identifier_of (step t (RenderAt i k props)).2 =
                 VString (nanoid_output n).
Proof.
  intros (Hsome & Hlt & _) Hi.
  destruct (Hsome _ _ Hi) as [n Hn]. exists n. split; [by apply (Hlt i)|].
  destruct Hn as (inst & Hi' & Hm). rewrite Hi in Hi'. injection Hi' as <-.
  simpl in Hm. subst mi.
  by destruct (step_render_hit t i k props _ Hi) as [-> _].
Qed.

(** An identifier is not taken up again after an unmount: when an instance
    is unmounted and the position is rendered anew, with the same component
    or another, the new instance gets an identifier different from the one
    the old instance had. *)
Theorem remount_new_identifier
    (events : list Event) (i : nat) (k k' : Kind) (props props' : Props)
    (mi : option Value) :
  let t := run empty_tree events in
  mounted t !! i = Some {| kind := k; memo := mi |} ->
  let old := identifier_of (step t (RenderAt i k props)).2 in
  let unmounted := (step t (UnmountAt i)).1 in
  identifier_of (step unmounted (RenderAt i k' props')).2 <> old.
Proof.
  intros t Hi old unmounted. subst old unmounted.
  assert (Hok : tree_ok t)
    by apply (tree_ok_run nanoid_fresh), tree_ok_empty.
  destruct (mounted_identifier t i k mi props Hok Hi) as (n & Hn & ->).
  destruct (fresh_identifier (step t (UnmountAt i)).1 i k' props')
    as (n' & Hn' & ->).
  - unfold cell_for. simpl. by rewrite lookup_delete_eq.
  - simpl in Hn'. intros [= Heq]. apply nanoid_fresh in Heq. lia.
Qed.

(** Rendering another component at the position of a mounted instance
    replaces the instance: the new one gets a new identifier. *)
Theorem replaced_component_new_identifier
    (events : list Event) (i : nat) (k k' : Kind) (props props' : Props)
    (mi : option Value) :
  let t := run empty_tree events in
  mounted t !! i = Some {| kind := k; memo := mi |} ->
  k' <> k ->
  identifier_of (step t (RenderAt i k' props')).2 <>
    identifier_of (step t (RenderAt i k props)).2.
Proof.
  intros t Hi Hk.
  assert (Hok : tree_ok t)
    by apply (tree_ok_run nanoid_fresh), tree_ok_empty.
  destruct (mounted_identifier t i k mi props Hok Hi) as (n & Hn & ->).
  destruct (fresh_identifier t i k' props') as (n' & Hn' & ->).
  - unfold cell_for. rewrite Hi. simpl. by rewrite decide_False.
  - intros [= Heq]. apply nanoid_fresh in Heq. lia.
Qed.
End FreshIdentifiers.

Section RenderAgain.
Context `{Engine} `{ReactMode} `{Imports}.

(** The element of a render is fixed by the props and the identifier. *)
Lemma component_element k props st st' :
  (useMemo nanoid st).1 = (useMemo nanoid st').1 ->
  (component k props st).1 = (component k props st').1.
Proof.
  intros Hid. destruct k; simpl.
  - rewrite !ToolbarButton_unfold. simpl. by rewrite Hid.
  - rewrite !ToolbarSpacer_unfold. simpl. by rewrite Hid.
  - rewrite !ToolbarView_unfold. simpl. by rewrite Hid.
Qed.

Lemma step_element t i k props :
  (step t (RenderAt i k props)).2 =
    Some (component k props
            {| calls := generated t; hook := cell_for t i k |}).1.
Proof. simpl. by destruct (component k props _). Qed.

(** Rendering is idempotent: a second render of the same component at the
    same position with the same props hands the native bridge the same
    element again and leaves the tree as the first render left it. *)
Theorem step_render_idempotent (t : Tree) (i : nat) (k : Kind)
    (props : Props) :
  let first := step t (RenderAt i k props) in
  step first.1 (RenderAt i k props) = first.
Proof.
  intros first. subst first.
  pose proof (step_render_stores t i k props) as Hstored.
  destruct (step_render_hit _ i k props _ Hstored) as [_ Htree].
  apply injective_projections; [exact Htree|].
  rewrite !step_element. f_equal. apply component_element.
  erewrite useMemo_nanoid_hit.
  - by destruct (step_render t i k props) as [<- _].
  - cbn [hook]. unfold cell_for. rewrite Hstored.
    cbn [kind memo]. by rewrite decide_True.
Qed.
End RenderAgain.

Section ButtonTitleEdge.
Context `{Engine} `{ReactMode} `{Imports}.

(** Children that are not text still become a title: [null] gives
    ["null"], a boolean (as left by a condition that guards the label)
    gives ["false"] or ["true"], an empty array gives the empty string, and
    an element gives ["[object Object]"]. *)
Theorem ToolbarButton_title_not_text (props : Props) (st : RenderState) :
  let title_for v :=
    item_of ToolbarButton (<["children" := v]> props) st !! "title" in
  title_for VNull = Some (VString "null")
  /\ title_for (VBool false) = Some (VString "false")
  /\ title_for (VBool true) = Some (VString "true")
  /\ title_for (VArray []) = Some (VString "")
  /\ (forall type element_props,
        title_for (VElement type element_props) =
          Some (VString "[object Object]")).
Proof.
  simpl. repeat split; intros;
    by rewrite ToolbarButton_title, get_insert_eq.
Qed.
End ButtonTitleEdge.

(** * The further properties on concrete inputs *)

Section MoreSamples.
#[local] Existing Instance sample_engine.
#[local] Existing Instance production.
#[local] Existing Instance sample_imports.

(** [<Toolbar.Button>Item {3}</Toolbar.Button>] written with string
    pieces. *)
Lemma ToolbarButton_title_of_strings_witness :
  let props : Props :=
    {["children" := VArray (VString <$> ["Item "; "3"])]} in
  props !! "children" = Some (VArray (VString <$> ["Item "; "3"]))
  /\ item_of ToolbarButton props fresh !! "title" =
       Some (VString "Item ,3").
Proof.
  intros props. split; [reflexivity|].
  apply (ToolbarButton_title_of_strings props fresh ["Item "; "3"]).
  reflexivity.
Defined.

Lemma ToolbarButton_overrides_witness :
  let props : Props := {["sf" := VString "mic"]} in
  ("identifier" ∈ ["onSelected"; "identifier"; "title"; "systemImageName"])
  /\ item_of ToolbarButton (<["identifier" := VString "mine"]> props) fresh =
       item_of ToolbarButton props fresh.
Proof.
  intros props.
  assert (Hin : "identifier" ∈
                  ["onSelected"; "identifier"; "title"; "systemImageName"])
    by (apply (bool_decide_unpack _); vm_compute; exact I).
  split; [exact Hin|].
  apply (ToolbarButton_overrides props fresh "identifier" (VString "mine")
           Hin).
Defined.

(** [<Toolbar.Spacer width={-5} />]. *)
Lemma ToolbarSpacer_fixed_iff_witness :
  let props : Props := {["width" := VNumber (number_of_Z (-5))]} in
  let item := item_of ToolbarSpacer props fresh in
  props !! "width" = Some (VNumber (number_of_Z (-5)))
  /\ (item !! "type" = Some (VString "fixedSpacer")
      <-> (forall sign, number_of_Z (-5) <> S754_zero sign)
          /\ number_of_Z (-5) <> S754_nan)
  /\ (item !! "type" = Some (VString "fluidSpacer")
      <-> (exists sign, number_of_Z (-5) = S754_zero sign)
          \/ number_of_Z (-5) = S754_nan).
Proof.
  intros props item. split; [reflexivity|].
  apply (ToolbarSpacer_fixed_iff props fresh (number_of_Z (-5))).
  reflexivity.
Defined.

Lemma ToolbarSpacer_frame_witness :
  let props : Props :=
    <["hidden" := VBool true]> {["width" := VNumber (number_of_Z 20)]} in
  ("hidden" ∉ ["width"; "type"; "identifier"])
  /\ item_of ToolbarSpacer props fresh !! "hidden" = props !! "hidden".
Proof.
  intros props.
  assert (Hout : "hidden" ∉ ["width"; "type"; "identifier"])
    by (apply (bool_decide_unpack _); vm_compute; exact I).
  split; [exact Hout|].
  apply (ToolbarSpacer_frame props fresh "hidden" Hout).
Defined.

Lemma ToolbarView_frame_witness :
  let props : Props :=
    <["sharesBackground" := VBool false]>
      {["style" := VObject {["width" := VNumber (number_of_Z 32)]}]} in
  ("sharesBackground" ∉ ["children"; "style"; "identifier"])
  /\ item_of ToolbarView props fresh !! "sharesBackground" =
       props !! "sharesBackground".
Proof.
  intros props.
  assert (Hout : "sharesBackground" ∉ ["children"; "style"; "identifier"])
    by (apply (bool_decide_unpack _); vm_compute; exact I).
  split; [exact Hout|].
  apply (ToolbarView_frame props fresh "sharesBackground" Hout).
Defined.

Lemma sample_fresh : forall m n : nat, nanoid_output m = nanoid_output n -> m = n.
Proof. intros m n Hmn. exact (pretty_nat_inj m n Hmn). Defined.

Lemma identifiers_distinct_all_kinds_witness :
  let t := run empty_tree sample_toolbar in
  0 <> 2
  /\ mounted t !! 0 = Some {| kind := Spacer; memo := Some (VString "0") |}
  /\ mounted t !! 2 =
       Some {| kind := CustomView; memo := Some (VString "2") |}
  /\ identifier_of (step t (RenderAt 0 Spacer ∅)).2 <>
       identifier_of (step t (RenderAt 2 CustomView ∅)).2.
Proof.
  intros t. split; [lia|]. split; [reflexivity|]. split; [reflexivity|].
  apply (identifiers_distinct_all_kinds sample_fresh sample_toolbar 0 2
           Spacer CustomView ∅ ∅ (Some (VString "0")) (Some (VString "2")));
    [lia | reflexivity | reflexivity].
Defined.

Lemma remount_new_identifier_witness :
  let t := run empty_tree sample_toolbar in
  mounted t !! 1 = Some {| kind := Button; memo := Some (VString "1") |}
  /\ identifier_of
       (step (step t (UnmountAt 1)).1 (RenderAt 1 Button ∅)).2 <>
     identifier_of (step t (RenderAt 1 Button ∅)).2.
Proof.
  intros t. split; [reflexivity|].
  apply (remount_new_identifier sample_fresh sample_toolbar 1 Button Button
           ∅ ∅ (Some (VString "1"))).
  reflexivity.
Defined.

Lemma replaced_component_new_identifier_witness :
  let t := run empty_tree sample_toolbar in
  mounted t !! 1 = Some {| kind := Button; memo := Some (VString "1") |}
  /\ Spacer <> Button
  /\ identifier_of (step t (RenderAt 1 Spacer ∅)).2 <>
       identifier_of (step t (RenderAt 1 Button ∅)).2.
Proof.
  intros t. split; [reflexivity|]. split; [discriminate|].
  apply (replaced_component_new_identifier sample_fresh sample_toolbar 1
           Button Spacer ∅ ∅ (Some (VString "1")));
    [reflexivity | discriminate].
Defined.
End MoreSamples.
